(** Verification of the monorepo test-runner configuration and its sample
    test ([vitest.config.ts] at the root, [my-vue-app/vitest.config.ts] and
    [sum.test.ts]).  Configuration modules are object literals; they are
    embedded as JavaScript values. *)

From Stdlib Require Import String Ascii List ZArith Bool Lia.
Import ListNotations.
Open Scope string_scope.
Set Warnings "-register-all".

(** * JavaScript values as they appear in the configuration literals *)

Inductive jv : Type :=
| JStr (s : string)
| JBool (b : bool)
| JArr (xs : list jv)
| JObj (fields : list (string * jv))
| JPlugin (name : string) (options : list (string * jv)).
    (** a plugin object, e.g. the result of [vue()], with the resolved
        options it exposes through its [api.options] *)

(** Property access [o.k] on an object literal: a later binding of the
    same key overrides an earlier one, as in JavaScript. *)
Fixpoint lookup (k : string) (fs : list (string * jv)) : option jv :=
  match fs with
  | [] => None
  | (k', v) :: fs' =>
      match lookup k fs' with
      | Some w => Some w
      | None => if String.eqb k k' then Some v else None
      end
  end.

Definition get (k : string) (v : jv) : option jv :=
  match v with
  | JObj fs => lookup k fs
  | _ => None
  end.

Definition get_path (ks : list string) (v : jv) : option jv :=
  fold_left (fun acc k => match acc with Some o => get k o | None => None end)
            ks (Some v).

Definition keys (v : jv) : list string :=
  match v with
  | JObj fs => map fst fs
  | _ => []
  end.

(** The keys declared by the object found along a property path. *)
Definition keys_at (ks : list string) (v : jv) : list string :=
  match get_path ks v with
  | Some o => keys o
  | None => []
  end.

(** [defineConfig] from [vitest/config] returns its argument unchanged. *)
Definition defineConfig (c : jv) : jv := c.

(** The host process a module is evaluated in: its environment variables
    ([process.env]) and its working directory ([process.cwd()]). *)
Record host_env := { env_vars : list (string * string); cwd : string }.

Fixpoint env_lookup (k : string) (vs : list (string * string)) : option string :=
  match vs with
  | [] => None
  | (k', v) :: vs' => if String.eqb k k' then Some v else env_lookup k vs'
  end.

(** [process.env.NODE_ENV === 'production'] *)
Definition is_production (e : host_env) : bool :=
  match env_lookup "NODE_ENV" (env_vars e) with
  | Some v => String.eqb v "production"
  | None => false
  end.

(** [vue()] from [@vitejs/plugin-vue], called without options: the plugin
    object named [vite:vue], whose options are fixed when [vue()] runs:
    [isProduction] and [devToolsEnabled] from [NODE_ENV], [root] from
    [process.cwd()], [sourceMap: true], [cssDevSourcemap: false].  (The
    [compiler] and [customElement] defaults, a null and a regular
    expression, do not depend on the host and are left out.) *)
Definition vue (e : host_env) : jv :=
  JPlugin "vite:vue" [
    ("isProduction", JBool (is_production e));
    ("root", JStr (cwd e));
    ("sourceMap", JBool true);
    ("cssDevSourcemap", JBool false);
    ("devToolsEnabled", JBool (negb (is_production e)))].

(** * Root configuration: [vitest.config.ts] (lines 4-18) *)

Definition root_config : jv :=
  defineConfig (JObj [
    ("test", JObj [
      ("projects", JArr [JStr "./my-vue-app"]);
      ("reporters", JArr [JStr "default"]);
      ("coverage", JObj [
        ("provider", JStr "istanbul");
        ("reporter", JArr [JStr "text"; JStr "lcov"]);
        ("all", JBool true);
        ("reportsDirectory", JStr "./test-results")])])]).

(** * Sub-project configuration: [my-vue-app/vitest.config.ts] (lines 23-36).
    The module calls [vue()], so the record it exports depends on the host
    process it is evaluated in. *)

Definition ui_config (e : host_env) : jv :=
  defineConfig (JObj [
    ("plugins", JArr [vue e]);
    ("test", JObj [
      ("environment", JStr "jsdom");
      ("globals", JBool true);
      ("includeSource", JArr [JStr "src/**/*.{js,ts,vue}"]);
      ("coverage", JObj [
        ("reportsDirectory", JStr "../test-results/ui")])])]).

(** * Module evaluation in a host process.  The root module is a closed
    object literal; the sub-project module calls [vue()]. *)

Definition eval_root_module (_ : host_env) : jv := root_config.
Definition eval_ui_module (e : host_env) : jv := ui_config e.

(** Two host processes used in the examples below. *)
Definition app_env : host_env :=
  {| env_vars := [("NODE_ENV", "test")]; cwd := "/repo/my-vue-app" |}.
Definition root_env : host_env :=
  {| env_vars := [("NODE_ENV", "test")]; cwd := "/repo" |}.
Definition app_ci_env : host_env :=
  {| env_vars := [("NODE_ENV", "test"); ("CI", "true")]; cwd := "/repo/my-vue-app" |}.

(** * The sample test [sum.test.ts] (lines 38-53) *)

(** Modelled from the spec: the module [./sum] is not part of the sources;
    the spec describes it as a two-argument addition function returning the
    arithmetic sum of integer inputs. *)
Definition sum (a b : Z) : Z := a + b.

(** The three [test(...)] cases: arguments and the expected value. *)
Definition fixtures : list (Z * Z * Z) :=
  [(1, 2, 3); (-1, -1, -2); (0, 0, 0)]%Z.

Inductive outcome := Pass | Fail.

(** [expect(x).toBe(y)]: [Object.is] comparison.  On integers within
    [Number.MAX_SAFE_INTEGER], as in the fixtures, it is plain equality;
    beyond that range (rounding) and at [-0] it is not modelled here. *)
Definition toBe (actual expected : Z) : outcome :=
  if Z.eqb actual expected then Pass else Fail.

Definition run_case (c : Z * Z * Z) : outcome :=
  let '(a, b, e) := c in toBe (sum a b) e.

(** Failures reported for a suite: the cases whose assertion failed. *)
Definition failures (cs : list (Z * Z * Z)) : list (Z * Z * Z) :=
  filter (fun c => match run_case c with Fail => true | Pass => false end) cs.

(** * Applying a configuration.  The runner reads the exported object and
    sets each top-level option it declares; options the object does not
    declare keep their previous value. *)

Definition settings := string -> option jv.


Definition load (c : jv) (s : settings) : settings :=
  fun k => match get k c with
           | Some v => Some v
           | None => s k
           end.

(** * Runner state and its operations.  The configuration is read at start-up
    into [rs_config]; the operations apply it, run one test case, or write a
    coverage report into the configured directory. *)





(** The largest integer a JavaScript number represents exactly,
    [Number.MAX_SAFE_INTEGER]. *)
Definition max_safe_integer : Z := (2 ^ 53 - 1)%Z.


(** * Glob patterns of [includeSource].  Tokens: a literal character, [*]
    (any run of characters without [/]), [**/] (any prefix that is empty or
    ends in [/], i.e. zero or more directories) and [{a,b,...}]
    (alternatives).  Dot-file exclusions of the real matcher are not
    modelled: this matcher accepts at least every path the real one does. *)

Inductive tok := Lit (c : ascii) | Star | GlobStar | Alt (alts : list (list ascii)).

Fixpoint parse_go (brace : option (list (list ascii) * list ascii))
                  (s : list ascii) : list tok :=
  match brace with
  | None =>
      match s with
      | [] => []
      | c :: r =>
          if Ascii.eqb c "*"%char then
            match r with
            | c2 :: c3 :: r' =>
                if Ascii.eqb c2 "*"%char && Ascii.eqb c3 "/"%char
                then GlobStar :: parse_go None r'
                else Star :: parse_go None r
            | _ => Star :: parse_go None r
            end
          else if Ascii.eqb c "{"%char then parse_go (Some ([], [])) r
          else Lit c :: parse_go None r
      end
  | Some (alts, cur) =>
      match s with
      | [] => [Alt (app alts [cur])]
      | c :: r =>
          if Ascii.eqb c "}"%char then Alt (app alts [cur]) :: parse_go None r
          else if Ascii.eqb c ","%char then parse_go (Some (app alts [cur], [])) r
          else parse_go (Some (alts, app cur [c])) r
      end
  end.

Definition parse (p : string) : list tok := parse_go None (list_ascii_of_string p).

Fixpoint star_match (k : list ascii -> bool) (s : list ascii) : bool :=
  k s || match s with
         | [] => false
         | c :: s' => negb (Ascii.eqb c "/"%char) && star_match k s'
         end.

Fixpoint dir_split (k : list ascii -> bool) (s : list ascii) : bool :=
  match s with
  | [] => false
  | c :: s' => (Ascii.eqb c "/"%char && k s') || dir_split k s'
  end.

Fixpoint is_prefix (a s : list ascii) : bool :=
  match a, s with
  | [], _ => true
  | x :: a', y :: s' => Ascii.eqb x y && is_prefix a' s'
  | _ :: _, [] => false
  end.

Fixpoint gmatch (ts : list tok) (s : list ascii) : bool :=
  match ts with
  | [] => match s with [] => true | _ => false end
  | Lit c :: ts' =>
      match s with
      | [] => false
      | c' :: s' => Ascii.eqb c c' && gmatch ts' s'
      end
  | Star :: ts' => star_match (gmatch ts') s
  | GlobStar :: ts' => gmatch ts' s || dir_split (gmatch ts') s
  | Alt alts :: ts' =>
      existsb (fun a => is_prefix a s && gmatch ts' (skipn (length a) s)) alts
  end.

Definition glob_match (pattern path : string) : bool :=
  gmatch (parse pattern) (list_ascii_of_string path).

(** The paths matched by one of the [test.includeSource] patterns.  The
    runner further removes the paths matched by [test.exclude]; that filter
    is not applied here, so this set contains every in-source candidate. *)
Definition include_source_candidate (c : jv) (path : string) : bool :=
  match get_path ["test"; "includeSource"] c with
  | Some (JArr pats) =>
      existsb (fun v => match v with JStr p => glob_match p path | _ => false end) pats
  | _ => false
  end.

(** * Helper lemmas *)

(** Sample evaluations of the [includeSource] matcher. *)
Example glob_ex1 : include_source_candidate (ui_config app_env) "src/components/Card.vue" = true.
Proof. reflexivity. Qed.
Example glob_ex2 : include_source_candidate (ui_config app_env) "src/main.ts" = true.
Proof. reflexivity. Qed.
Example glob_ex3 : include_source_candidate (ui_config app_env) "lib/main.ts" = false.
Proof. reflexivity. Qed.
Example glob_ex4 : include_source_candidate (ui_config app_env) "src/style.css" = false.
Proof. reflexivity. Qed.
Example glob_ex5 : include_source_candidate (ui_config app_env) "src/a/b.tsx" = false.
Proof. reflexivity. Qed.
Example parse_ex :
  parse "src/**/*.{js,ts,vue}" =
  [Lit "s"; Lit "r"; Lit "c"; Lit "/"; GlobStar; Star; Lit ".";
   Alt [["j";"s"]; ["t";"s"]; ["v";"u";"e"]]]%char.
Proof. reflexivity. Qed.

Lemma star_match_sound (k : list ascii -> bool) (s : list ascii) :
  star_match k s = true -> exists p q, s = app p q /\ k q = true.
Proof.
  induction s as [|c s IH]; simpl; intros H.
  - exists [], []. rewrite orb_false_r in H. split; [reflexivity | exact H].
  - apply orb_true_iff in H as [H|H].
    + exists [], (c :: s). split; [reflexivity | exact H].
    + apply andb_true_iff in H as [_ H].
      destruct (IH H) as (p & q & -> & Hq).
      exists (c :: p), q. split; [reflexivity | exact Hq].
Qed.

Lemma dir_split_sound (k : list ascii -> bool) (s : list ascii) :
  dir_split k s = true -> exists p q, s = app p q /\ k q = true.
Proof.
  induction s as [|c s IH]; simpl; intros H; [discriminate|].
  apply orb_true_iff in H as [H|H].
  - apply andb_true_iff in H as [_ H].
    exists [c], s. split; [reflexivity | exact H].
  - destruct (IH H) as (p & q & -> & Hq).
    exists (c :: p), q. split; [reflexivity | exact Hq].
Qed.

Lemma is_prefix_sound (a s : list ascii) :
  is_prefix a s = true -> s = app a (skipn (length a) s).
Proof.
  revert s; induction a as [|x a IH]; intros s H; [reflexivity|].
  destruct s as [|y s]; simpl in H; [discriminate|].
  apply andb_true_iff in H as [Hxy H].
  apply Ascii.eqb_eq in Hxy; subst y.
  simpl. f_equal. apply IH, H.
Qed.

Lemma gmatch_lit (c : ascii) (ts : list tok) (s : list ascii) :
  gmatch (Lit c :: ts) s = true -> exists s', s = c :: s' /\ gmatch ts s' = true.
Proof.
  destruct s as [|c' s']; simpl; intros H; [discriminate|].
  apply andb_true_iff in H as [Hc H].
  apply Ascii.eqb_eq in Hc; subst c'.
  exists s'. split; [reflexivity | exact H].
Qed.

Lemma gmatch_alt_last (alts : list (list ascii)) (s : list ascii) :
  gmatch [Alt alts] s = true -> In s alts.
Proof.
  simpl; intros H.
  apply existsb_exists in H as (a & Hin & H).
  apply andb_true_iff in H as [Hp Hend].
  apply is_prefix_sound in Hp.
  destruct (skipn (length a) s) eqn:E; [|discriminate].
  rewrite app_nil_r in Hp. subst s. exact Hin.
Qed.

Lemma gmatch_globstar (ts : list tok) (s : list ascii) :
  gmatch (GlobStar :: ts) s = true -> exists p q, s = app p q /\ gmatch ts q = true.
Proof.
  simpl; intros H.
  apply orb_true_iff in H as [H|H].
  - exists [], s. split; [reflexivity | exact H].
  - apply dir_split_sound, H.
Qed.

Lemma gmatch_star (ts : list tok) (s : list ascii) :
  gmatch (Star :: ts) s = true -> exists p q, s = app p q /\ gmatch ts q = true.
Proof. simpl; apply star_match_sound. Qed.

Lemma load_get (c : jv) (s : settings) (k : string) :
  load c s k = match get k c with Some v => Some v | None => s k end.
Proof. reflexivity. Qed.


Lemma include_source_candidate_ui (e : host_env) (path : string) :
  include_source_candidate (ui_config e) path =
  glob_match "src/**/*.{js,ts,vue}" path || false.
Proof.
  unfold include_source_candidate.
  assert (Hg : get_path ["test"; "includeSource"] (ui_config e) =
                Some (JArr [JStr "src/**/*.{js,ts,vue}"])) by reflexivity.
  rewrite Hg. reflexivity.
Qed.

Lemma include_pattern_sound (path : string) :
  glob_match "src/**/*.{js,ts,vue}" path = true ->
  exists (dir ext : list ascii),
    list_ascii_of_string path =
      app ["s"; "r"; "c"; "/"]%char (app dir ("."%char :: ext)) /\
    In ext [["j"; "s"]; ["t"; "s"]; ["v"; "u"; "e"]]%char.
Proof.
  unfold glob_match; intros H.
  rewrite parse_ex in H.
  apply gmatch_lit in H as (s1 & E1 & H).
  apply gmatch_lit in H as (s2 & E2 & H).
  apply gmatch_lit in H as (s3 & E3 & H).
  apply gmatch_lit in H as (s4 & E4 & H).
  apply gmatch_globstar in H as (p1 & q1 & E5 & H).
  apply gmatch_star in H as (p2 & q2 & E6 & H).
  apply gmatch_lit in H as (s7 & E7 & H).
  apply gmatch_alt_last in H.
  exists (app p1 p2), s7. split; [|exact H].
  rewrite E1, E2, E3, E4, E5, E6, E7.
  rewrite <- app_assoc. reflexivity.
Qed.

(** * Claims *)

(** C1: on every fixture pair of the sample test, [sum] returns the stated
    value (1+2 = 3, -1+-1 = -2, 0+0 = 0), which is the integer sum. *)
Theorem sum_fixture_values :
  sum 1 2 = 3%Z /\ sum (-1) (-1) = (-2)%Z /\ sum 0 0 = 0%Z /\
  Forall (fun c => let '(a, b, e) := c in sum a b = e /\ sum a b = (a + b)%Z)
         fixtures.
Proof.
  repeat split; repeat constructor.
Qed.

(** C2: the root configuration declares exactly [test] with the options
    [projects = ['./my-vue-app']], [reporters = ['default']] and
    [coverage = { provider: 'istanbul', reporter: ['text','lcov'], all: true,
    reportsDirectory: './test-results' }]. *)
Theorem root_config_options :
  keys root_config = ["test"] /\
  keys_at ["test"] root_config = ["projects"; "reporters"; "coverage"] /\
  get_path ["test"; "projects"] root_config = Some (JArr [JStr "./my-vue-app"]) /\
  get_path ["test"; "reporters"] root_config = Some (JArr [JStr "default"]) /\
  keys_at ["test"; "coverage"] root_config =
    ["provider"; "reporter"; "all"; "reportsDirectory"] /\
  get_path ["test"; "coverage"; "provider"] root_config = Some (JStr "istanbul") /\
  get_path ["test"; "coverage"; "reporter"] root_config =
    Some (JArr [JStr "text"; JStr "lcov"]) /\
  get_path ["test"; "coverage"; "all"] root_config = Some (JBool true) /\
  get_path ["test"; "coverage"; "reportsDirectory"] root_config =
    Some (JStr "./test-results").
Proof. repeat split. Qed.

(** C3: loading a configuration is idempotent: applying the same
    configuration a second time leaves every applied setting as the first
    application left it; in particular two evaluations of the root module,
    applied one after the other, give the settings of a single load. *)
Theorem load_idempotent :
  (forall (c : jv) (s : settings) (k : string),
      load c (load c s) k = load c s k) /\
  (forall (e1 e2 : host_env) (s : settings) (k : string),
      load (eval_root_module e2) (load (eval_root_module e1) s) k =
      load (eval_root_module e1) s k).
Proof.
  assert (Hgen : forall c s k, load c (load c s) k = load c s k).
  { intros c s k. rewrite !load_get. destruct (get k c); reflexivity. }
  split; [exact Hgen|].
  intros e1 e2 s k. unfold eval_root_module. apply Hgen.
Qed.

(** C4: a test case fails exactly when the computed [sum a b] differs from
    the expected value, and passes when they are equal; no fixture of the
    sample test fails. *)
Theorem assertion_fails_iff :
  (forall a b e : Z,
      (run_case (a, b, e) = Fail <-> sum a b <> e) /\
      (sum a b = e -> run_case (a, b, e) = Pass)) /\
  failures fixtures = [].
Proof.
  split; [|reflexivity].
  intros a b e. unfold run_case, toBe.
  destruct (Z.eqb_spec (sum a b) e) as [Heq|Hne].
  - split; [split; [discriminate | intros H; contradiction] | reflexivity].
  - split; [split; [intros _; exact Hne | intros _; reflexivity] | intros H; contradiction].
Qed.

(** C5: the sub-project configuration declares the [jsdom] test
    environment, the [vue] plugin, and the coverage output path
    [../test-results/ui]. *)
Theorem ui_config_declarations (e : host_env) :
  get_path ["test"; "environment"] (ui_config e) = Some (JStr "jsdom") /\
  get_path ["plugins"] (ui_config e) = Some (JArr [vue e]) /\
  get_path ["test"; "coverage"; "reportsDirectory"] (ui_config e) =
    Some (JStr "../test-results/ui").
Proof. repeat split. Qed.



(** C7: every fixture input and expected sum lies within the exact integer
    range of JavaScript numbers, and so does [sum a b]: no fixture exercises
    overflow. *)
Theorem fixtures_within_safe_range :
  Forall (fun c => let '(a, b, e) := c in
            (Z.abs a <= max_safe_integer)%Z /\ (Z.abs b <= max_safe_integer)%Z /\
            (Z.abs e <= max_safe_integer)%Z /\
            (Z.abs (sum a b) <= max_safe_integer)%Z) fixtures.
Proof.
  unfold fixtures, max_safe_integer, sum.
  repeat constructor; simpl; lia.
Qed.

(** C8: the sub-project coverage record declares only [reportsDirectory]
    and no [provider]; the provider is declared by the root configuration
    alone, as [istanbul]. *)
Theorem coverage_provider_root_only :
  forall e : host_env,
  keys_at ["test"; "coverage"] (ui_config e) = ["reportsDirectory"] /\
  get_path ["test"; "coverage"; "provider"] (ui_config e) = None /\
  get_path ["test"; "coverage"; "provider"] root_config = Some (JStr "istanbul").
Proof. intros e; repeat split. Qed.

(** C9, as stated, fails: evaluating the sub-project module in two processes
    whose working directories differ gives two different records, because
    [vue()] captures [process.cwd()] in the plugin's options. *)
Lemma config_eval_deterministic_counterexample :
  eval_ui_module app_env <> eval_ui_module root_env.
Proof. unfold eval_ui_module, ui_config, vue, defineConfig. cbv. discriminate. Qed.

(** C9 (amended): the root module reads no external state, so every two
    evaluations give equal records.  The sub-project module reads the host
    only through [vue()]: its [test] settings are the same in every
    evaluation, and two evaluations with the same working directory and the
    same production flag ([NODE_ENV]) give equal records. *)
Theorem config_eval_host_dependence :
  (forall e1 e2 : host_env, eval_root_module e1 = eval_root_module e2) /\
  (forall e1 e2 : host_env,
      get "test" (eval_ui_module e1) = get "test" (eval_ui_module e2)) /\
  (forall e1 e2 : host_env,
      cwd e1 = cwd e2 -> is_production e1 = is_production e2 ->
      eval_ui_module e1 = eval_ui_module e2).
Proof.
  split; [intros e1 e2; reflexivity|].
  split; [intros e1 e2; reflexivity|].
  intros e1 e2 Hcwd Hprod.
  unfold eval_ui_module, ui_config, vue.
  rewrite Hcwd, Hprod. reflexivity.
Qed.

Lemma config_eval_host_dependence_witness :
  cwd app_env = cwd app_ci_env /\
  is_production app_env = is_production app_ci_env /\
  eval_ui_module app_env = eval_ui_module app_ci_env.
Proof.
  assert (Hc : cwd app_env = cwd app_ci_env) by reflexivity.
  assert (Hp : is_production app_env = is_production app_ci_env) by reflexivity.
  split; [exact Hc|]. split; [exact Hp|].
  apply (proj2 (proj2 config_eval_host_dependence) app_env app_ci_env Hc Hp).
Defined.

(** C10: the sub-project configuration sets [globals: true] and
    [includeSource: ['src/**/*.{js,ts,vue}']], so every in-source candidate
    path is [src/] followed by some path, a dot and one of the extensions
    [js], [ts] or [vue]. *)
Theorem include_source_scope :
  forall e : host_env,
  get_path ["test"; "globals"] (ui_config e) = Some (JBool true) /\
  get_path ["test"; "includeSource"] (ui_config e) =
    Some (JArr [JStr "src/**/*.{js,ts,vue}"]) /\
  (forall path : string,
      include_source_candidate (ui_config e) path = true ->
      exists (dir ext : list ascii),
        list_ascii_of_string path =
          app ["s"; "r"; "c"; "/"]%char (app dir ("."%char :: ext)) /\
        In ext [["j"; "s"]; ["t"; "s"]; ["v"; "u"; "e"]]%char).
Proof.
  intros e.
  split; [reflexivity|]. split; [reflexivity|].
  intros path H.
  rewrite include_source_candidate_ui, orb_false_r in H.
  apply include_pattern_sound, H.
Qed.
